(** * amplifier-module-tool-todo: the todo tool and its session store

    A shallow embedding of [amplifier_module_tool_todo/__init__.py]
    ([mount] and [TodoTool.execute]) together with the Python runtime
    behaviour the tool relies on: dictionary access, iteration, the [in]
    operator, subscripting, [len], [str()] / [repr()] and the exceptions
    these raise on operands of the wrong type.

    The input of [execute] is a [dict[str, Any]]; the values reaching the
    tool are JSON values decoded by the host, which is what [value] below
    describes. *)

From Stdlib Require Import String Ascii ZArith List Bool Lia.
From stdpp Require Import base list strings pretty gmap.
Import ListNotations.

Set Warnings "-register-all".

Local Open Scope string_scope.
Local Open Scope Z_scope.

(** ** Python values *)

Module Py.

(** JSON-decoded Python objects.  A [float] is carried by its [repr]
    (the only thing the tool can observe of it is its printed form and that
    it is neither a string nor a container).  A [str] is a sequence of code
    points below 256.  A [dict] keeps insertion order and has [str] keys.
    Values are finite trees and integers are unbounded: the interpreter's
    recursion limit and its limit on the digits of a printed [int] are not
    part of the model. *)
Inductive value : Type :=
  | VNone
  | VBool (b : bool)
  | VInt (n : Z)
  | VFloat (repr : string)
  | VStr (s : string)
  | VList (items : list value)
  | VDict (entries : list (string * value)).

Definition pydict : Type := list (string * value).

(** The exceptions the operations below can raise. *)
Inductive exn : Type :=
  | TypeError
  | KeyError.

(** Outcome of evaluating a Python expression or statement block. *)
Inductive res (A : Type) : Type :=
  | Ok (a : A)
  | Raise (e : exn).
Arguments Ok {A} a.
Arguments Raise {A} e.

Definition bind {A B : Type} (m : res A) (k : A -> res B) : res B :=
  match m with
  | Ok a => k a
  | Raise e => Raise e
  end.

Notation "x <- m ;; k" := (bind m (fun x => k))
  (at level 100, m at next level, right associativity).

(** [d.get(k)] as an option, and the two forms used by the tool. *)
Fixpoint dict_lookup (k : string) (d : pydict) : option value :=
  match d with
  | [] => None
  | (k', v) :: rest => if String.eqb k k' then Some v else dict_lookup k rest
  end.

Definition dict_get (d : pydict) (k : string) (default : value) : value :=
  match dict_lookup k d with
  | Some v => v
  | None => default
  end.

Definition dict_has (k : string) (d : pydict) : bool :=
  match dict_lookup k d with
  | Some _ => true
  | None => false
  end.


(** [v == s] for a string literal [s]: only an equal [str] compares equal. *)
Definition eq_str (v : value) (s : string) : bool :=
  match v with
  | VStr s' => String.eqb s' s
  | _ => false
  end.

(** [k in s] on strings is the substring test. *)
Fixpoint is_substring (k s : string) : bool :=
  if String.prefix k s then true
  else match s with
       | EmptyString => false
       | String _ rest => is_substring k rest
       end.

(** [k in v] for a string [k]. *)
Definition contains (v : value) (k : string) : res bool :=
  match v with
  | VDict d => Ok (dict_has k d)
  | VList l => Ok (existsb (fun x => eq_str x k) l)
  | VStr s => Ok (is_substring k s)
  | VNone | VBool _ | VInt _ | VFloat _ => Raise TypeError
  end.

(** [v[k]] for a string [k]. *)
Definition subscript (v : value) (k : string) : res value :=
  match v with
  | VDict d =>
      match dict_lookup k d with
      | Some x => Ok x
      | None => Raise KeyError
      end
  | _ => Raise TypeError
  end.

(** The items [for ... in v] walks through. *)
Definition iterate (v : value) : res (list value) :=
  match v with
  | VList l => Ok l
  | VStr s => Ok (map (fun c => VStr (String c EmptyString)) (list_ascii_of_string s))
  | VDict d => Ok (map (fun kv => VStr (fst kv)) d)
  | VNone | VBool _ | VInt _ | VFloat _ => Raise TypeError
  end.

(** [len(v)]. *)
Definition len (v : value) : res nat :=
  match v with
  | VList l => Ok (List.length l)
  | VStr s => Ok (String.length s)
  | VDict d => Ok (List.length d)
  | VNone | VBool _ | VInt _ | VFloat _ => Raise TypeError
  end.

(** *** Printing: [repr()] and [str()] *)

Definition squote : ascii := "'"%char.
Definition dquote : ascii := "034"%char.
Definition backslash : ascii := "\"%char.

Fixpoint has_char (c : ascii) (s : string) : bool :=
  match s with
  | EmptyString => false
  | String c' rest => Ascii.eqb c c' || has_char c rest
  end.

Definition hex_digit (n : N) : ascii :=
  ascii_of_N (if (n <? 10)%N then 48 + n else 87 + n).

Definition hex_escape (n : N) : string :=
  String backslash
    (String "x" (String (hex_digit (n / 16)) (String (hex_digit (n mod 16)) EmptyString))).

(** Code points 128..255 that [str.isprintable] rejects: the C1 controls,
    the no-break space and the soft hyphen. *)
Definition latin1_printable (n : N) : bool :=
  negb ((n <=? 160)%N || (n =? 173)%N).

Definition repr_char (quote : ascii) (c : ascii) : string :=
  let n := N_of_ascii c in
  if Ascii.eqb c quote || Ascii.eqb c backslash then
    String backslash (String c EmptyString)
  else if (n =? 9)%N then String backslash "t"
  else if (n =? 10)%N then String backslash "n"
  else if (n =? 13)%N then String backslash "r"
  else if (n <? 32)%N || (n =? 127)%N then hex_escape n
  else if (n <? 127)%N then String c EmptyString
  else if latin1_printable n then String c EmptyString
  else hex_escape n.

Fixpoint repr_chars (quote : ascii) (s : string) : string :=
  match s with
  | EmptyString => EmptyString
  | String c rest => repr_char quote c ++ repr_chars quote rest
  end.

(** [repr(s)] of a [str]: single quotes unless the string has a single
    quote and no double quote. *)
Definition repr_str (s : string) : string :=
  let quote := if has_char squote s && negb (has_char dquote s) then dquote else squote in
  String quote (repr_chars quote s ++ String quote EmptyString).

Fixpoint join (sep : string) (l : list string) : string :=
  match l with
  | [] => EmptyString
  | [x] => x
  | x :: rest => x ++ sep ++ join sep rest
  end.

Fixpoint repr (v : value) : string :=
  match v with
  | VNone => "None"
  | VBool true => "True"
  | VBool false => "False"
  | VInt n => pretty n
  | VFloat r => r
  | VStr s => repr_str s
  | VList l => "[" ++ join ", " (map repr l) ++ "]"
  | VDict d =>
      "{" ++ join ", " (map (fun kv => repr_str (fst kv) ++ ": " ++ repr (snd kv)) d) ++ "}"
  end.

(** [str(v)], which is what an f-string field [{v}] inserts. *)
Definition str (v : value) : string :=
  match v with
  | VStr s => s
  | _ => repr v
  end.

End Py.

(** ** The tool *)

Module Todo.
Import Py.

(** [amplifier_core.ToolResult]: the result envelope.  The class lives in
    amplifier_core, outside this repository.  [output] and [error] default
    to [None]; a failure built without an output comes back with the
    message of its error as output. *)
Record ToolResult : Type := mkToolResult {
  success : bool;
  output : option value;
  error : option value
}.

(** What the host's tool registry holds under a name. *)
Inductive tool : Type :=
  | TodoTool
  | HostTool (id : nat).

(** The part of [amplifier_core.ModuleCoordinator] the module touches:
    the dynamic attribute [todo_state] ([None] while it has never been
    assigned) and [mount_points["tools"]]. *)
Record ModuleCoordinator : Type := mkCoordinator {
  todo_state : option value;
  tools : gmap string tool
}.

Definition set_todo_state (v : value) (c : ModuleCoordinator) : ModuleCoordinator :=
  {| todo_state := Some v; tools := tools c |}.

(** [TodoTool.name]. *)
Definition name : string := "todo".

(** [mount(coordinator)]. *)
Definition mount (c : ModuleCoordinator) : ModuleCoordinator :=
  let c := set_todo_state (VList []) c in
  {| todo_state := todo_state c; tools := <[name := TodoTool]> (tools c) |}.


(** *** Statements that may raise and that read or write the coordinator *)

Definition M (A : Type) : Type := ModuleCoordinator -> res A * ModuleCoordinator.

Definition ret {A : Type} (a : A) : M A := fun c => (Ok a, c).

Definition bindM {A B : Type} (m : M A) (k : A -> M B) : M B :=
  fun c =>
    match m c with
    | (Ok a, c') => k a c'
    | (Raise e, c') => (Raise e, c')
    end.

Definition lift {A : Type} (r : res A) : M A := fun c => (r, c).

(** [getattr(self.coordinator, "todo_state", default)]. *)
Definition getattr_todo_state (default : value) : M value :=
  fun c => (Ok (match todo_state c with Some v => v | None => default end), c).

(** [self.coordinator.todo_state = v]. *)
Definition assign_todo_state (v : value) : M unit :=
  fun c => (Ok tt, set_todo_state v c).

Notation "x <~ m ;; k" := (bindM m (fun x => k))
  (at level 100, m at next level, right associativity).
Notation "m ;;; k" := (bindM m (fun _ => k))
  (at level 100, right associativity).

(** *** Validation *)

Definition required_fields : list string := ["content"; "status"; "activeForm"].
Definition allowed_statuses : list string := ["pending"; "in_progress"; "completed"].

(** [all(k in todo for k in ks)]: the generator is consumed up to the first
    false membership test. *)
Fixpoint all_in (todo : value) (ks : list string) : res bool :=
  match ks with
  | [] => Ok true
  | k :: rest =>
      b <- contains todo k ;;
      if b then all_in todo rest else Ok false
  end.

(** [v in ss] for a list [ss] of string literals. *)
Definition in_strings (v : value) (ss : list string) : bool :=
  existsb (eq_str v) ss.

(** [ToolResult(success=False, error={"message": message})]. *)
Definition failure (message : string) : ToolResult :=
  {| success := false;
     output := Some (VStr message);
     error := Some (VDict [("message", VStr message)]) |}.

Definition succeeded (out : pydict) : ToolResult :=
  {| success := true; output := Some (VDict out); error := None |}.

Definition missing_fields_message (i : nat) : string :=
  "Todo " ++ pretty i ++ " missing required fields (content, status, activeForm)".

Definition invalid_status_message (i : nat) (status : value) : string :=
  "Todo " ++ pretty i ++ " has invalid status: " ++ str status.

(** The loop [for i, todo in enumerate(todos)] from index [i] on:
    [Some r] when the loop body returns [r], [None] when the loop runs to
    its end. *)
Fixpoint validate_from (i : nat) (items : list value) : res (option ToolResult) :=
  match items with
  | [] => Ok None
  | todo :: rest =>
      complete <- all_in todo required_fields ;;
      if negb complete then Ok (Some (failure (missing_fields_message i)))
      else
        status <- subscript todo "status" ;;
        if negb (in_strings status allowed_statuses) then
          shown <- subscript todo "status" ;;
          Ok (Some (failure (invalid_status_message i shown)))
        else validate_from (S i) rest
  end.

Definition validate (todos : value) : res (option ToolResult) :=
  items <- iterate todos ;;
  validate_from 0 items.

(** [sum(1 for t in todos if t["status"] == status)]. *)
Fixpoint count_status (status : string) (items : list value) : res nat :=
  match items with
  | [] => Ok 0%nat
  | t :: rest =>
      s <- subscript t "status" ;;
      n <- count_status status rest ;;
      Ok (if eq_str s status then S n else n)
  end.

Definition tally (status : string) (todos : value) : res nat :=
  items <- iterate todos ;;
  count_status status items.

Definition int_of_nat (n : nat) : value := VInt (Z.of_nat n).

(** *** [TodoTool.execute] *)

Definition execute (input : pydict) : M ToolResult :=
  let action := dict_get input "action" VNone in
  if eq_str action "create" then
    let todos := dict_get input "todos" (VList []) in
    early <~ lift (validate todos) ;;
    match early with
    | Some r => ret r
    | None =>
        assign_todo_state todos ;;;
        count <~ lift (len todos) ;;
        ret (succeeded [("status", VStr "created");
                        ("count", int_of_nat count);
                        ("todos", todos)])
    end
  else if eq_str action "update" then
    let todos := dict_get input "todos" (VList []) in
    early <~ lift (validate todos) ;;
    match early with
    | Some r => ret r
    | None =>
        assign_todo_state todos ;;;
        pending <~ lift (tally "pending" todos) ;;
        in_progress <~ lift (tally "in_progress" todos) ;;
        completed <~ lift (tally "completed" todos) ;;
        count <~ lift (len todos) ;;
        ret (succeeded [("status", VStr "updated");
                        ("count", int_of_nat count);
                        ("pending", int_of_nat pending);
                        ("in_progress", int_of_nat in_progress);
                        ("completed", int_of_nat completed)])
    end
  else if eq_str action "list" then
    todo_state <~ getattr_todo_state (VList []) ;;
    count <~ lift (len todo_state) ;;
    ret (succeeded [("status", VStr "listed");
                    ("count", int_of_nat count);
                    ("todos", todo_state)])
  else
    ret (failure ("Unknown action: " ++ str action ++ ". Valid actions: create, update, list")).

End Todo.

(** ** Vocabulary of the specification *)

Module Spec.
Import Py Todo.

(** A todo item has all three required fields. *)
Definition has_required_fields (d : pydict) : bool :=
  forallb (fun k => dict_has k d) required_fields.

(** A todo item carries a status that is one of the three allowed values. *)
Definition status_allowed (d : pydict) : bool :=
  match dict_lookup "status" d with
  | Some v => in_strings v allowed_statuses
  | None => false
  end.

Definition item_valid (d : pydict) : bool :=
  has_required_fields d && status_allowed d.

(** The message a create or update answers an invalid record at index [i]
    with. *)
Definition rejection (i : nat) (d : pydict) : string :=
  if has_required_fields d then invalid_status_message i (dict_get d "status" VNone)
  else missing_fields_message i.

(** The required fields an item lacks. *)
Definition missing_fields (d : pydict) : list string :=
  List.filter (fun k => negb (dict_has k d)) required_fields.

(** An item has the given status. *)
Definition has_status (status : string) (d : pydict) : bool :=
  match dict_lookup "status" d with
  | Some v => eq_str v status
  | None => false
  end.

(** Number of items with the given status. *)
Definition count_with (status : string) (items : list pydict) : nat :=
  List.length (List.filter (has_status status) items).

(** A todos payload made of records. *)
Definition records (items : list pydict) : value := VList (map VDict items).

(** The store as [list] reads it: the stored value, or the empty list when
    the attribute was never assigned. *)
Definition contents (c : ModuleCoordinator) : value :=
  match todo_state c with
  | Some v => v
  | None => VList []
  end.

(** The values [len] accepts. *)
Definition is_sized (v : value) : bool :=
  match v with
  | VList _ | VStr _ | VDict _ => true
  | VNone | VBool _ | VInt _ | VFloat _ => false
  end.

Definition size (v : value) : nat :=
  match len v with
  | Ok n => n
  | Raise _ => 0%nat
  end.

Definition store_sized (c : ModuleCoordinator) : Prop :=
  is_sized (contents c) = true.

(** The coordinators a session can be in: one on which the attribute was
    never assigned, one that was just mounted, and whatever a call of
    [execute] leaves behind, whether it returned or raised. *)
Inductive reachable : ModuleCoordinator -> Prop :=
  | reach_unset c : todo_state c = None -> reachable c
  | reach_mount c : reachable (mount c)
  | reach_execute c input : reachable c -> reachable (snd (execute input c)).

(** The call addresses the given action. *)
Definition action_is (act : string) (input : pydict) : Prop :=
  dict_lookup "action" input = Some (VStr act).

(** The call is a create or an update. *)
Definition writes (input : pydict) : Prop :=
  action_is "create" input \/ action_is "update" input.

(** The call submits the given records as its todos. *)
Definition submits (items : list pydict) (input : pydict) : Prop :=
  dict_lookup "todos" input = Some (records items).

(** The result is a failure envelope carrying the message: the success
    flag is off and the error is a record with that message. *)
Definition fails_with (message : string) (r : ToolResult) : Prop :=
  success r = false /\
  error r = Some (VDict [("message", VStr message)]).

(** The result is one of the two shapes of the envelope. *)
Definition is_envelope (r : ToolResult) : Prop :=
  (success r = true /\ (exists out, output r = Some (VDict out)) /\ error r = None)
  \/ (exists message, fails_with message r).

(** The values that are neither iterable nor support [in]. *)
Definition is_scalar (v : value) : bool := negb (is_sized v).

(** A string has every required field name as a substring. *)
Definition mentions_all_fields (s : string) : bool :=
  forallb (fun k => is_substring k s) required_fields.

(** Decimal digits, of which the printed index of a message is made. *)
Definition is_digit (c : ascii) : bool :=
  ((48 <=? N_of_ascii c) && (N_of_ascii c <=? 57))%N.

Fixpoint all_digits (s : string) : bool :=
  match s with
  | EmptyString => true
  | String c rest => is_digit c && all_digits rest
  end.





End Spec.

(** ** A session and a few items to run the tool on *)

Module Session.
Import Py Todo Spec.

(** A coordinator before [mount], with an empty tool registry. *)
Definition unmounted : ModuleCoordinator :=
  {| todo_state := None; tools := ∅ |}.

Definition session : ModuleCoordinator := mount unmounted.

Definition item (content activeForm status : string) : pydict :=
  [("content", VStr content); ("activeForm", VStr activeForm); ("status", VStr status)].

Definition run_tests : pydict := item "Run tests" "Running tests" "pending".
Definition build : pydict := item "Build project" "Building project" "in_progress".
Definition deploy : pydict := item "Deploy" "Deploying" "completed".
Definition bogus : pydict := item "Run tests" "Running tests" "bogus".

Definition no_content : pydict :=
  [("activeForm", VStr "Running tests"); ("status", VStr "pending")].
Definition no_active_form : pydict :=
  [("content", VStr "Run tests"); ("status", VStr "pending")].

Definition call (action : string) (todos : value) : pydict :=
  [("action", VStr action); ("todos", todos)].

Definition call_without_todos (action : string) : pydict :=
  [("action", VStr action)].

End Session.

(** ** The validation loop on records *)

Section Validation.
Import Py Todo Spec.

Lemma all_in_record (d : pydict) :
  all_in (VDict d) required_fields = Ok (has_required_fields d).
Proof.
  unfold has_required_fields, required_fields; simpl.
  destruct (dict_has "content" d); simpl; [|reflexivity].
  destruct (dict_has "status" d); simpl; [|reflexivity].
  destruct (dict_has "activeForm" d); reflexivity.
Qed.

Lemma required_fields_status (d : pydict) :
  has_required_fields d = true ->
  exists v, dict_lookup "status" d = Some v.
Proof.
  unfold has_required_fields, required_fields; simpl.
  rewrite !andb_true_iff. intros (_ & Hs & _).
  unfold dict_has in Hs.
  destruct (dict_lookup "status" d) as [v|]; [eauto | discriminate].
Qed.

(** One turn of the loop on a record that lacks a field. *)
Lemma validate_from_missing (i : nat) (d : pydict) (rest : list value) :
  has_required_fields d = false ->
  validate_from i (VDict d :: rest) = Ok (Some (failure (missing_fields_message i))).
Proof.
  intros H. cbn [validate_from]. rewrite all_in_record, H. reflexivity.
Qed.

(** One turn of the loop on a record with all fields and a bad status. *)
Lemma validate_from_bad_status (i : nat) (d : pydict) (v : value) (rest : list value) :
  has_required_fields d = true ->
  dict_lookup "status" d = Some v ->
  in_strings v allowed_statuses = false ->
  validate_from i (VDict d :: rest) = Ok (Some (failure (invalid_status_message i v))).
Proof.
  intros Hf Hs Hv. cbn [validate_from]. rewrite all_in_record, Hf.
  cbn [bind negb subscript]. rewrite Hs. cbn [bind]. rewrite Hv. reflexivity.
Qed.

(** One turn of the loop on a valid record. *)
Lemma validate_from_valid (i : nat) (d : pydict) (rest : list value) :
  item_valid d = true ->
  validate_from i (VDict d :: rest) = validate_from (S i) rest.
Proof.
  unfold item_valid, status_allowed. rewrite andb_true_iff. intros [Hf Hs].
  cbn [validate_from]. rewrite all_in_record, Hf.
  cbn [bind negb subscript].
  destruct (dict_lookup "status" d) as [v|]; [|discriminate].
  cbn [bind]. rewrite Hs. reflexivity.
Qed.

Lemma validate_from_all_valid (i : nat) (items : list pydict) :
  Forall (fun d => item_valid d = true) items ->
  validate_from i (map VDict items) = Ok None.
Proof.
  intros H. revert i. induction H as [|d items Hd _ IH]; intros i.
  - reflexivity.
  - cbn [map]. rewrite validate_from_valid by exact Hd. apply IH.
Qed.

Lemma validate_from_invalid (i : nat) (d : pydict) (rest : list value) :
  item_valid d = false ->
  validate_from i (VDict d :: rest) = Ok (Some (failure (rejection i d))).
Proof.
  unfold item_valid, rejection, status_allowed, dict_get. intros H.
  destruct (has_required_fields d) eqn:Hf.
  - destruct (required_fields_status d Hf) as [v Hv]. rewrite Hv in *.
    apply validate_from_bad_status; auto.
  - apply validate_from_missing; auto.
Qed.

(** The loop stops at the first invalid record. *)
Lemma validate_from_first_invalid (i : nat) (pre : list pydict) (d : pydict) (post : list pydict) :
  Forall (fun d => item_valid d = true) pre ->
  item_valid d = false ->
  validate_from i (map VDict (pre ++ d :: post))
  = Ok (Some (failure (rejection (i + List.length pre) d))).
Proof.
  intros H Hd. revert i. induction H as [|d' pre Hd' _ IH]; intros i.
  - cbn [app map List.length]. rewrite Nat.add_0_r. apply validate_from_invalid, Hd.
  - cbn [app map List.length]. rewrite validate_from_valid by exact Hd'.
    rewrite IH. do 4 f_equal. lia.
Qed.

(** A sequence with an invalid record splits at its first invalid one. *)
Lemma first_invalid_split (items : list pydict) :
  Exists (fun d => item_valid d = false) items ->
  exists pre d post,
    items = (pre ++ d :: post)%list /\
    Forall (fun d => item_valid d = true) pre /\ item_valid d = false.
Proof.
  induction items as [|d items IH]; intros H.
  - inversion H.
  - destruct (item_valid d) eqn:Hd.
    + destruct IH as (pre & d' & post & -> & Hpre & Hd').
      { inversion H; subst; [congruence | assumption]. }
      exists (d :: pre), d', post. repeat split; auto.
    + exists [], d, items. repeat split; auto.
Qed.

End Validation.

(** ** Tallies on valid records *)

Section Tallies.
Import Py Todo Spec.

Lemma count_status_valid (status : string) (items : list pydict) :
  Forall (fun d => item_valid d = true) items ->
  count_status status (map VDict items) = Ok (count_with status items).
Proof.
  unfold count_with.
  induction 1 as [|d items Hd _ IH]; [reflexivity|].
  cbn [map count_status subscript List.filter]. rewrite IH.
  unfold item_valid in Hd. apply andb_true_iff in Hd as [Hf _].
  destruct (required_fields_status d Hf) as [v Hv].
  unfold has_status. rewrite Hv. cbn [bind].
  destruct (eq_str v status); reflexivity.
Qed.




End Tallies.

(** ** Running [execute] *)

Section Execute.
Import Py Todo Spec.

Lemma dict_get_found (d : pydict) (k : string) (v default : value) :
  dict_lookup k d = Some v -> dict_get d k default = v.
Proof. unfold dict_get. intros ->. reflexivity. Qed.

Lemma dict_get_absent (d : pydict) (k : string) (default : value) :
  dict_lookup k d = None -> dict_get d k default = default.
Proof. unfold dict_get. intros ->. reflexivity. Qed.

(** The two writing branches differ only in the output they build; both
    are entered as follows. *)
Lemma execute_create (input : pydict) (c : ModuleCoordinator) :
  action_is "create" input ->
  execute input c =
  match validate (dict_get input "todos" (VList [])) with
  | Raise e => (Raise e, c)
  | Ok (Some r) => (Ok r, c)
  | Ok None =>
      let todos := dict_get input "todos" (VList []) in
      match len todos with
      | Raise e => (Raise e, set_todo_state todos c)
      | Ok count =>
          (Ok (succeeded [("status", VStr "created");
                          ("count", int_of_nat count);
                          ("todos", todos)]),
           set_todo_state todos c)
      end
  end.
Proof.
  intros Ha. unfold execute. rewrite (dict_get_found _ _ _ _ Ha).
  change (eq_str (VStr "create") "create") with true. cbv iota.
  unfold bindM, lift, ret, assign_todo_state.
  destruct (validate _) as [[r|]|e]; reflexivity.
Qed.

Lemma execute_update (input : pydict) (c : ModuleCoordinator) :
  action_is "update" input ->
  execute input c =
  match validate (dict_get input "todos" (VList [])) with
  | Raise e => (Raise e, c)
  | Ok (Some r) => (Ok r, c)
  | Ok None =>
      let todos := dict_get input "todos" (VList []) in
      let c' := set_todo_state todos c in
      match (pending <- tally "pending" todos ;;
             in_progress <- tally "in_progress" todos ;;
             completed <- tally "completed" todos ;;
             count <- len todos ;;
             Ok (succeeded [("status", VStr "updated");
                            ("count", int_of_nat count);
                            ("pending", int_of_nat pending);
                            ("in_progress", int_of_nat in_progress);
                            ("completed", int_of_nat completed)])) with
      | Ok r => (Ok r, c')
      | Raise e => (Raise e, c')
      end
  end.
Proof.
  intros Ha. unfold execute. rewrite (dict_get_found _ _ _ _ Ha).
  change (eq_str (VStr "update") "create") with false.
  change (eq_str (VStr "update") "update") with true. cbv iota.
  unfold bindM, lift, ret, assign_todo_state.
  destruct (validate _) as [[r|]|e]; try reflexivity.
  cbv zeta.
  destruct (tally "pending" _); [|reflexivity].
  destruct (tally "in_progress" _); [|reflexivity].
  destruct (tally "completed" _); [|reflexivity].
  destruct (len _); reflexivity.
Qed.

Lemma execute_list (input : pydict) (c : ModuleCoordinator) :
  action_is "list" input ->
  execute input c =
  match len (contents c) with
  | Ok count =>
      (Ok (succeeded [("status", VStr "listed");
                      ("count", int_of_nat count);
                      ("todos", contents c)]), c)
  | Raise e => (Raise e, c)
  end.
Proof.
  intros Ha. unfold execute. rewrite (dict_get_found _ _ _ _ Ha).
  change (eq_str (VStr "list") "create") with false.
  change (eq_str (VStr "list") "update") with false.
  change (eq_str (VStr "list") "list") with true. cbv iota.
  unfold bindM, lift, ret, getattr_todo_state, contents.
  destruct (len _); reflexivity.
Qed.

Lemma execute_unknown (input : pydict) (c : ModuleCoordinator) :
  let action := dict_get input "action" VNone in
  action <> VStr "create" -> action <> VStr "update" -> action <> VStr "list" ->
  execute input c =
  (Ok (failure ("Unknown action: " ++ str action ++ ". Valid actions: create, update, list")), c).
Proof.
  intros action H1 H2 H3. unfold execute. fold action.
  assert (Hne : forall s, action <> VStr s -> eq_str action s = false).
  { intros s Hs. destruct action; try reflexivity. cbn [eq_str].
    apply String.eqb_neq. congruence. }
  rewrite !Hne by assumption. reflexivity.
Qed.

(** The four ways a call is dispatched. *)
Lemma action_cases (input : pydict) :
  action_is "create" input \/ action_is "update" input \/ action_is "list" input \/
  (dict_get input "action" VNone <> VStr "create" /\
   dict_get input "action" VNone <> VStr "update" /\
   dict_get input "action" VNone <> VStr "list").
Proof.
  unfold action_is, dict_get.
  destruct (dict_lookup "action" input) as [[| b | n | r | s | l | d]|];
    try (right; right; right; repeat split; discriminate).
  destruct (String.eqb_spec s "create") as [->|Hc]; [auto|].
  destruct (String.eqb_spec s "update") as [->|Hu]; [auto|].
  destruct (String.eqb_spec s "list") as [->|Hl]; [auto|].
  right; right; right. repeat split; congruence.
Qed.

Lemma validate_records (items : list pydict) :
  validate (records items) = validate_from 0 (map VDict items).
Proof. reflexivity. Qed.

End Execute.

(** ** What a payload that passes validation looks like *)

Section Passing.
Import Py Todo Spec.

Lemma validate_from_passes (i : nat) (items : list value) :
  validate_from i items = Ok None ->
  exists ds, items = map VDict ds /\ Forall (fun d => item_valid d = true) ds.
Proof.
  revert i. induction items as [|todo rest IH]; intros i H.
  - exists []. split; [reflexivity | constructor].
  - destruct todo as [| b | n | r | s | l | d]; try discriminate H.
    + (* a string never gets past the subscript *)
      cbn [validate_from all_in required_fields contains bind] in H.
      destruct (is_substring "content" s); [|discriminate H].
      destruct (is_substring "status" s); [|discriminate H].
      destruct (is_substring "activeForm" s); discriminate H.
    + (* nor does a list *)
      cbn [validate_from all_in required_fields contains bind] in H.
      destruct (existsb _ l); [|discriminate H].
      destruct (existsb _ l); [|discriminate H].
      destruct (existsb _ l); discriminate H.
    + destruct (item_valid d) eqn:Hd.
      * rewrite validate_from_valid in H by exact Hd.
        destruct (IH _ H) as (ds & -> & Hds).
        exists (d :: ds). split; [reflexivity | constructor; assumption].
      * rewrite validate_from_invalid in H by exact Hd. discriminate H.
Qed.

Lemma validate_passes (todos : value) :
  validate todos = Ok None ->
  is_sized todos = true /\
  exists ds, iterate todos = Ok (map VDict ds) /\
             Forall (fun d => item_valid d = true) ds.
Proof.
  unfold validate. intros H.
  destruct (iterate todos) as [items|e] eqn:Hit; [|discriminate H].
  cbn [bind] in H. destruct (validate_from_passes _ _ H) as (ds & -> & Hds).
  split; [|eauto].
  destruct todos; try discriminate Hit; reflexivity.
Qed.

Lemma len_sized (v : value) : is_sized v = true -> len v = Ok (size v).
Proof. unfold size. destruct v; try discriminate; reflexivity. Qed.

Lemma tally_passed (status : string) (todos : value) (ds : list pydict) :
  iterate todos = Ok (map VDict ds) ->
  Forall (fun d => item_valid d = true) ds ->
  tally status todos = Ok (count_with status ds).
Proof.
  intros Hit Hds. unfold tally. rewrite Hit. cbn [bind].
  apply count_status_valid, Hds.
Qed.

(** A call either leaves the coordinator as it was, or it is a create or
    update that returned success and stored the submitted payload, which
    had passed validation. *)
Lemma execute_outcome (input : pydict) (c : ModuleCoordinator) :
  snd (execute input c) = c \/
  (writes input /\
   validate (dict_get input "todos" (VList [])) = Ok None /\
   (exists r, fst (execute input c) = Ok r /\ success r = true) /\
   snd (execute input c) = set_todo_state (dict_get input "todos" (VList [])) c).
Proof.
  destruct (action_cases input) as [Ha | [Ha | [Ha | (H1 & H2 & H3)]]].
  - rewrite (execute_create _ _ Ha).
    destruct (validate _) as [[r|]|e] eqn:Hv; [left; reflexivity | | left; reflexivity].
    right. destruct (validate_passes _ Hv) as (Hs & _).
    cbv zeta. rewrite (len_sized _ Hs). cbn [fst snd].
    repeat split; [left; exact Ha | eexists; split; reflexivity].
  - rewrite (execute_update _ _ Ha).
    destruct (validate _) as [[r|]|e] eqn:Hv; [left; reflexivity | | left; reflexivity].
    right. destruct (validate_passes _ Hv) as (Hs & ds & Hit & Hds).
    cbv zeta. rewrite !(tally_passed _ _ _ Hit Hds), (len_sized _ Hs). cbn [bind fst snd].
    repeat split; [right; exact Ha | eexists; split; reflexivity].
  - left. rewrite (execute_list _ _ Ha). destruct (len _); reflexivity.
  - left. rewrite execute_unknown by assumption. reflexivity.
Qed.

Lemma mount_sized (c : ModuleCoordinator) : store_sized (mount c).
Proof. reflexivity. Qed.

Lemma execute_keeps_sized (input : pydict) (c : ModuleCoordinator) :
  store_sized c -> store_sized (snd (execute input c)).
Proof.
  intros Hc. destruct (execute_outcome input c) as [-> | (_ & Hv & _ & ->)]; [exact Hc|].
  apply validate_passes in Hv as [Hs _]. exact Hs.
Qed.

(** Invariant of the session: what the store holds can be measured. *)
Lemma reachable_sized (c : ModuleCoordinator) : reachable c -> store_sized c.
Proof.
  induction 1 as [c Hc | c | c input _ IH].
  - unfold store_sized, contents. rewrite Hc. reflexivity.
  - apply mount_sized.
  - apply execute_keeps_sized, IH.
Qed.

End Passing.

(** ** Properties of the tool *)

Section Properties.
Import Py Todo Spec Session.

Lemma valid_or_invalid (items : list pydict) :
  Forall (fun d => item_valid d = true) items \/
  Exists (fun d => item_valid d = false) items.
Proof.
  induction items as [|d items [IH|IH]].
  - left. constructor.
  - destruct (item_valid d) eqn:Hd.
    + left. constructor; assumption.
    + right. apply Exists_cons_hd. exact Hd.
  - right. apply Exists_cons_tl. exact IH.
Qed.

Lemma validate_rejects (items : list pydict) :
  Exists (fun d => item_valid d = false) items ->
  exists pre d post,
    items = (pre ++ d :: post)%list /\
    Forall (fun d => item_valid d = true) pre /\ item_valid d = false /\
    validate (records items) = Ok (Some (failure (rejection (List.length pre) d))).
Proof.
  intros H. destruct (first_invalid_split items H) as (pre & d & post & -> & Hpre & Hd).
  exists pre, d, post. repeat split; auto.
  rewrite validate_records. apply (validate_from_first_invalid 0); assumption.
Qed.

Lemma validate_accepts (items : list pydict) :
  Forall (fun d => item_valid d = true) items ->
  validate (records items) = Ok None.
Proof. intros H. rewrite validate_records. apply validate_from_all_valid, H. Qed.

Lemma failure_fails_with (message : string) : fails_with message (failure message).
Proof. repeat split. Qed.

(** A create or update answers an invalid payload of records with the
    rejection of its first invalid record and leaves the coordinator as it
    was. *)
Lemma execute_rejects (c : ModuleCoordinator) (input : pydict)
    (pre : list pydict) (d : pydict) (post : list pydict) :
  writes input ->
  submits (pre ++ d :: post) input ->
  Forall (fun d => item_valid d = true) pre ->
  item_valid d = false ->
  execute input c = (Ok (failure (rejection (List.length pre) d)), c).
Proof.
  intros Hw Hs Hpre Hd.
  assert (Hv : validate (dict_get input "todos" (VList []))
               = Ok (Some (failure (rejection (List.length pre) d)))).
  { rewrite (dict_get_found _ _ _ _ Hs), validate_records.
    apply (validate_from_first_invalid 0); assumption. }
  destruct Hw as [Ha|Ha];
    [rewrite (execute_create _ _ Ha) | rewrite (execute_update _ _ Ha)];
    rewrite Hv; reflexivity.
Qed.

(** A create answers a valid payload of records with its count and the
    payload, and stores the payload. *)
Lemma execute_create_accepts (c : ModuleCoordinator) (input : pydict) (items : list pydict) :
  action_is "create" input ->
  submits items input ->
  Forall (fun d => item_valid d = true) items ->
  execute input c =
  (Ok (succeeded [("status", VStr "created");
                  ("count", int_of_nat (List.length items));
                  ("todos", records items)]),
   set_todo_state (records items) c).
Proof.
  intros Ha Hs Hv. rewrite (execute_create _ _ Ha), (dict_get_found _ _ _ _ Hs).
  rewrite (validate_accepts _ Hv). cbn [records len]. rewrite length_map. reflexivity.
Qed.

(** An update answers a valid payload of records with its count and the
    three tallies, and stores the payload. *)
Lemma execute_update_accepts (c : ModuleCoordinator) (input : pydict) (items : list pydict) :
  action_is "update" input ->
  submits items input ->
  Forall (fun d => item_valid d = true) items ->
  execute input c =
  (Ok (succeeded [("status", VStr "updated");
                  ("count", int_of_nat (List.length items));
                  ("pending", int_of_nat (count_with "pending" items));
                  ("in_progress", int_of_nat (count_with "in_progress" items));
                  ("completed", int_of_nat (count_with "completed" items))]),
   set_todo_state (records items) c).
Proof.
  intros Ha Hs Hv. rewrite (execute_update _ _ Ha), (dict_get_found _ _ _ _ Hs).
  rewrite (validate_accepts _ Hv). cbv zeta.
  rewrite !(tally_passed _ (records items) items eq_refl Hv).
  cbn [bind records len]. rewrite length_map. reflexivity.
Qed.

(** On a store that can be measured, list answers with the store. *)
Lemma execute_list_sized (c : ModuleCoordinator) (input : pydict) :
  action_is "list" input ->
  store_sized c ->
  execute input c =
  (Ok (succeeded [("status", VStr "listed");
                  ("count", int_of_nat (size (contents c)));
                  ("todos", contents c)]), c).
Proof.
  intros Ha Hc. rewrite (execute_list _ _ Ha), (len_sized _ Hc). reflexivity.
Qed.

End Properties.

(** ** The claims of the specification *)

Section Claims.
Import Py Todo Spec Session.

(** C1.  A create or update whose todos hold at least one invalid record
    (a required field missing, or a status outside the three allowed ones)
    returns a failure result, and the coordinator, hence the store, is
    exactly what it was before the call. *)
Theorem rejected_write_keeps_store (c : ModuleCoordinator) (input : pydict)
    (items : list pydict) :
  writes input ->
  submits items input ->
  Exists (fun d => item_valid d = false) items ->
  exists message r, execute input c = (Ok r, c) /\ fails_with message r.
Proof.
  intros Hw Hs Hbad.
  destruct (first_invalid_split items Hbad) as (pre & d & post & -> & Hpre & Hd).
  exists (rejection (List.length pre) d), (failure (rejection (List.length pre) d)).
  split; [|apply failure_fails_with].
  apply (execute_rejects c input pre d post); assumption.
Qed.

Lemma rejected_write_keeps_store_witness :
  exists message r,
    execute (call "create" (records [run_tests; bogus])) session = (Ok r, session) /\
    fails_with message r.
Proof.
  apply (rejected_write_keeps_store session _ [run_tests; bogus]).
  - left. reflexivity.
  - reflexivity.
  - apply Exists_cons_tl, Exists_cons_hd. reflexivity.
Defined.

(** C2, as stated, fails: a todos payload that is not a sequence makes
    the call raise [TypeError] instead of returning an envelope. *)
Lemma execute_raises_on_null_todos :
  fst (execute (call "create" VNone) session) = Raise TypeError /\
  ~ (exists r, fst (execute (call "create" VNone) session) = Ok r).
Proof.
  split; [reflexivity|]. intros [r Hr]. discriminate Hr.
Qed.

(** C2, amended.  For every action value and every input whose todos field
    is absent or a sequence of records, a call on a coordinator the session
    can be in returns a result envelope: success with an output and no
    error, or failure with an error that carries a message. *)
Theorem execute_returns_envelope (c : ModuleCoordinator) (input : pydict) :
  reachable c ->
  (dict_lookup "todos" input = None \/ exists items, submits items input) ->
  exists r, fst (execute input c) = Ok r /\ is_envelope r.
Proof.
  intros Hc Htodos.
  assert (Hv : validate (dict_get input "todos" (VList [])) = Ok None \/
               exists message, validate (dict_get input "todos" (VList []))
                               = Ok (Some (failure message))).
  { destruct Htodos as [Hnone | [items Hs]].
    - left. rewrite (dict_get_absent _ _ _ Hnone). reflexivity.
    - rewrite (dict_get_found _ _ _ _ Hs).
      destruct (valid_or_invalid items) as [Hok | Hbad].
      + left. apply validate_accepts, Hok.
      + right. destruct (validate_rejects items Hbad) as (pre & d & post & _ & _ & _ & ->).
        eauto. }
  destruct (action_cases input) as [Ha | [Ha | [Ha | (H1 & H2 & H3)]]].
  - rewrite (execute_create _ _ Ha).
    destruct Hv as [Hv | [message Hv]]; rewrite Hv.
    + apply validate_passes in Hv as [Hsz _]. cbv zeta. rewrite (len_sized _ Hsz).
      eexists; split; [reflexivity | left; repeat split; eauto].
    + eexists; split; [reflexivity | right; eexists; apply failure_fails_with].
  - rewrite (execute_update _ _ Ha).
    destruct Hv as [Hv | [message Hv]]; rewrite Hv.
    + apply validate_passes in Hv as (Hsz & ds & Hit & Hds). cbv zeta.
      rewrite !(tally_passed _ _ _ Hit Hds), (len_sized _ Hsz). cbn [bind].
      eexists; split; [reflexivity | left; repeat split; eauto].
    + eexists; split; [reflexivity | right; eexists; apply failure_fails_with].
  - rewrite (execute_list_sized _ _ Ha (reachable_sized _ Hc)).
    eexists; split; [reflexivity | left; repeat split; eauto].
  - rewrite execute_unknown by assumption.
    eexists; split; [reflexivity | right; eexists; apply failure_fails_with].
Qed.

Lemma execute_returns_envelope_witness :
  exists r, fst (execute (call "update" (records [run_tests; bogus])) session) = Ok r /\
            is_envelope r.
Proof.
  apply (execute_returns_envelope session).
  - apply reach_mount.
  - right. exists [run_tests; bogus]. reflexivity.
Defined.



(** C4.  For every prior coordinator and every valid sequence of records,
    the empty one included, a create or update succeeds and leaves the
    store holding exactly the submitted sequence, whatever it held before;
    a further create or update of another valid sequence leaves exactly
    that other sequence, with nothing of the first. *)
Theorem write_replaces_store (c : ModuleCoordinator) (input : pydict)
    (items : list pydict) :
  writes input ->
  submits items input ->
  Forall (fun d => item_valid d = true) items ->
  (exists r, fst (execute input c) = Ok r /\ success r = true) /\
  snd (execute input c) = set_todo_state (VList (map VDict items)) c /\
  todo_state (snd (execute input c)) = Some (VList (map VDict items)) /\
  forall (input' : pydict) (items' : list pydict),
    writes input' ->
    submits items' input' ->
    Forall (fun d => item_valid d = true) items' ->
    todo_state (snd (execute input' (snd (execute input c)))) = Some (VList (map VDict items')).
Proof.
  assert (Hstore : forall c0 input0 items0,
             writes input0 -> submits items0 input0 ->
             Forall (fun d => item_valid d = true) items0 ->
             (exists r, fst (execute input0 c0) = Ok r /\ success r = true) /\
             snd (execute input0 c0) = set_todo_state (VList (map VDict items0)) c0).
  { intros c0 input0 items0 [Ha|Ha] Hs Hv.
    - rewrite (execute_create_accepts c0 _ items0 Ha Hs Hv).
      split; [eexists; split; reflexivity | reflexivity].
    - rewrite (execute_update_accepts c0 _ items0 Ha Hs Hv).
      split; [eexists; split; reflexivity | reflexivity]. }
  intros Hw Hs Hv. destruct (Hstore c input items Hw Hs Hv) as [Hr Hc].
  split; [exact Hr|]. split; [exact Hc|]. split; [rewrite Hc; reflexivity|].
  intros input' items' Hw' Hs' Hv'.
  destruct (Hstore (snd (execute input c)) input' items' Hw' Hs' Hv') as [_ ->].
  reflexivity.
Qed.

Lemma write_replaces_store_witness :
  todo_state (snd (execute (call "create" (records [run_tests; build])) session))
  = Some (VList [VDict run_tests; VDict build]) /\
  todo_state (snd (execute (call "update" (records [deploy]))
                     (snd (execute (call "create" (records [run_tests; build])) session))))
  = Some (VList [VDict deploy]).
Proof.
  destruct (write_replaces_store session (call "create" (records [run_tests; build]))
              [run_tests; build]) as (_ & _ & Hstore & Hnext).
  - left. reflexivity.
  - reflexivity.
  - repeat constructor.
  - split; [exact Hstore|].
    apply (Hnext (call "update" (records [deploy])) [deploy]).
    + right. reflexivity.
    + reflexivity.
    + repeat constructor.
Defined.





(** C7, as stated, fails: the message of a missing-field failure does not
    say which required field is missing.  A record without content and a
    record without activeForm are answered with the same message, so
    nothing read off the message tells the missing field. *)
Lemma missing_field_is_not_named :
  missing_fields no_content = ["content"] /\
  missing_fields no_active_form = ["activeForm"] /\
  fst (execute (call "create" (records [no_content])) session)
  = Ok (failure "Todo 0 missing required fields (content, status, activeForm)") /\
  fst (execute (call "create" (records [no_active_form])) session)
  = Ok (failure "Todo 0 missing required fields (content, status, activeForm)") /\
  ~ (exists which : string -> list string,
       forall (d : pydict) (message : string),
         has_required_fields d = false ->
         fst (execute (call "create" (records [d])) session) = Ok (failure message) ->
         which message = missing_fields d).
Proof.
  repeat split. intros [which H].
  pose proof (H no_content _ eq_refl eq_refl) as H1.
  pose proof (H no_active_form _ eq_refl eq_refl) as H2.
  rewrite H1 in H2. discriminate H2.
Qed.

(** C7, amended.  For every create or update of a sequence of records with
    at least one invalid record, the failure message gives the 0-based
    index of the first invalid record and the kind of failure: for a record
    that lacks a required field, a fixed text that lists all three required
    fields (not the one that is missing); for a record with all fields and
    a status outside the allowed ones, that status value. *)
Theorem rejection_message (c : ModuleCoordinator) (input : pydict)
    (pre : list pydict) (d : pydict) (post : list pydict) :
  writes input ->
  submits (pre ++ d :: post) input ->
  Forall (fun d => item_valid d = true) pre ->
  item_valid d = false ->
  exists r,
    execute input c = (Ok r, c) /\
    (has_required_fields d = false ->
     fails_with ("Todo " ++ pretty (List.length pre)
                 ++ " missing required fields (content, status, activeForm)") r) /\
    (has_required_fields d = true ->
     exists status,
       dict_lookup "status" d = Some status /\
       in_strings status allowed_statuses = false /\
       fails_with ("Todo " ++ pretty (List.length pre)
                   ++ " has invalid status: " ++ str status) r).
Proof.
  intros Hw Hs Hpre Hd. exists (failure (rejection (List.length pre) d)).
  split; [apply (execute_rejects c input pre d post); assumption|].
  unfold rejection. split; intros Hf; rewrite Hf.
  - apply failure_fails_with.
  - destruct (required_fields_status d Hf) as [status Hst].
    exists status. split; [exact Hst|].
    unfold item_valid, status_allowed in Hd. rewrite Hf, Hst in Hd.
    split; [exact Hd|].
    rewrite (dict_get_found _ _ _ _ Hst). apply failure_fails_with.
Qed.

Lemma rejection_message_witness :
  exists r,
    execute (call "update" (records [run_tests; bogus; no_content])) session
    = (Ok r, session) /\
    fails_with "Todo 1 has invalid status: bogus" r.
Proof.
  destruct (rejection_message session
              (call "update" (records [run_tests; bogus; no_content]))
              [run_tests] bogus [no_content]) as (r & Hrun & _ & Hstatus).
  - right. reflexivity.
  - reflexivity.
  - repeat constructor.
  - reflexivity.
  - exists r. split; [exact Hrun|].
    destruct (Hstatus eq_refl) as (status & Hst & _ & Hmsg).
    injection Hst as <-. exact Hmsg.
Defined.

(** C8.  For every action value outside create, update and list, the
    absent action included, the call returns a failure whose message names
    that value and enumerates the three valid actions. *)
Theorem unknown_action_fails (c : ModuleCoordinator) (input : pydict) :
  dict_get input "action" VNone <> VStr "create" ->
  dict_get input "action" VNone <> VStr "update" ->
  dict_get input "action" VNone <> VStr "list" ->
  exists r,
    execute input c = (Ok r, c) /\
    fails_with ("Unknown action: " ++ str (dict_get input "action" VNone)
                ++ ". Valid actions: create, update, list") r.
Proof.
  intros H1 H2 H3. eexists. split; [|apply failure_fails_with].
  apply execute_unknown; assumption.
Qed.

Lemma unknown_action_fails_witness :
  exists r,
    execute (call "delete" (records [run_tests])) session = (Ok r, session) /\
    fails_with "Unknown action: delete. Valid actions: create, update, list" r.
Proof.
  apply (unknown_action_fails session (call "delete" (records [run_tests])));
    discriminate.
Defined.

(** C9.  For every coordinator and every input whose action is list or is
    none of create, update and list, the call leaves the coordinator
    unchanged; and two list calls on the same coordinator give the same
    result whatever todos field they carry. *)
Theorem read_only_actions (c : ModuleCoordinator) (input : pydict) :
  action_is "list" input \/
  (dict_get input "action" VNone <> VStr "create" /\
   dict_get input "action" VNone <> VStr "update" /\
   dict_get input "action" VNone <> VStr "list") ->
  snd (execute input c) = c /\
  (action_is "list" input ->
   forall other, action_is "list" other -> execute other c = execute input c).
Proof.
  intros [Ha | (H1 & H2 & H3)].
  - split.
    + rewrite (execute_list _ _ Ha). destruct (len _); reflexivity.
    + intros _ other Ho. rewrite (execute_list _ _ Ha), (execute_list _ _ Ho). reflexivity.
  - split.
    + rewrite execute_unknown by assumption. reflexivity.
    + intros Ha. exfalso. apply H3.
      apply (dict_get_found _ _ _ VNone Ha).
Qed.

Lemma read_only_actions_witness :
  snd (execute (call "list" (records [bogus]))
         (snd (execute (call "create" (records [run_tests])) session)))
  = snd (execute (call "create" (records [run_tests])) session) /\
  execute (call_without_todos "list")
    (snd (execute (call "create" (records [run_tests])) session))
  = execute (call "list" (records [bogus]))
      (snd (execute (call "create" (records [run_tests])) session)).
Proof.
  destruct (read_only_actions
              (snd (execute (call "create" (records [run_tests])) session))
              (call "list" (records [bogus]))) as [Hsame Hany].
  - left. reflexivity.
  - split; [exact Hsame|].
    apply (Hany eq_refl (call_without_todos "list")). reflexivity.
Defined.



End Claims.

(** ** The validation loop on arbitrary payloads *)

Section Payloads.
Import Py Todo Spec Session.

(** The loop skips a prefix of valid records. *)
Lemma validate_from_skip (i : nat) (pre : list pydict) (rest : list value) :
  Forall (fun d => item_valid d = true) pre ->
  validate_from i (map VDict pre ++ rest) = validate_from (i + List.length pre) rest.
Proof.
  intros H. revert i. induction H as [|d pre Hd _ IH]; intros i.
  - cbn [map app List.length]. rewrite Nat.add_0_r. reflexivity.
  - cbn [map app List.length]. rewrite validate_from_valid by exact Hd.
    rewrite IH. f_equal. lia.
Qed.

Lemma all_in_string (s : string) :
  all_in (VStr s) required_fields = Ok (mentions_all_fields s).
Proof.
  unfold mentions_all_fields, required_fields. cbn [all_in contains bind forallb].
  destruct (is_substring "content" s); [|reflexivity].
  destruct (is_substring "status" s); [|reflexivity].
  destruct (is_substring "activeForm" s); reflexivity.
Qed.

(** One turn of the loop on a string. *)
Lemma validate_from_string (i : nat) (s : string) (rest : list value) :
  validate_from i (VStr s :: rest) =
  if mentions_all_fields s then Raise TypeError
  else Ok (Some (failure (missing_fields_message i))).
Proof.
  cbn [validate_from]. rewrite all_in_string.
  destruct (mentions_all_fields s); reflexivity.
Qed.

(** One turn of the loop on a value that is no container. *)
Lemma validate_from_scalar (i : nat) (v : value) (rest : list value) :
  is_scalar v = true -> validate_from i (v :: rest) = Raise TypeError.
Proof. destruct v; try discriminate; reflexivity. Qed.

(** The loop ends in one of three ways: it runs through, and then every
    item was a valid record; its body returns a failure; or it raises
    [TypeError]. *)
Lemma validate_from_cases (i : nat) (items : list value) :
  (validate_from i items = Ok None /\
   exists ds, items = map VDict ds /\ Forall (fun d => item_valid d = true) ds) \/
  (exists message, validate_from i items = Ok (Some (failure message))) \/
  validate_from i items = Raise TypeError.
Proof.
  revert i. induction items as [|todo rest IH]; intros i.
  - left. split; [reflexivity|]. exists []. split; [reflexivity | constructor].
  - destruct todo as [| b | n | r | s | l | d];
      try (right; right; reflexivity).
    + rewrite validate_from_string.
      destruct (mentions_all_fields s); [right; right; reflexivity | right; left; eauto].
    + cbn [validate_from all_in required_fields contains bind].
      destruct (existsb _ l); [|right; left; eauto].
      destruct (existsb _ l); [|right; left; eauto].
      destruct (existsb _ l); [right; right; reflexivity | right; left; eauto].
    + destruct (item_valid d) eqn:Hd.
      * rewrite validate_from_valid by exact Hd.
        destruct (IH (S i)) as [(Hrun & ds & -> & Hds) | [Hfail | Hraise]].
        -- left. split; [exact Hrun|]. exists (d :: ds).
           split; [reflexivity | constructor; assumption].
        -- right; left. exact Hfail.
        -- right; right. exact Hraise.
      * right; left. rewrite validate_from_invalid by exact Hd. eauto.
Qed.

Lemma validate_cases (todos : value) :
  validate todos = Ok None \/
  (exists message, validate todos = Ok (Some (failure message))) \/
  validate todos = Raise TypeError.
Proof.
  unfold validate. destruct todos; try (right; right; reflexivity); cbn [iterate bind].
  all: match goal with |- context [validate_from 0 ?l] =>
         destruct (validate_from_cases 0 l) as [[H _] | [H | H]]; auto end.
Qed.

End Payloads.

(** ** How a create or update ends, by the outcome of validation *)

Section Writes.
Import Py Todo Spec Session.

Lemma execute_write_failed (input : pydict) (c : ModuleCoordinator) (r : ToolResult) :
  writes input ->
  validate (dict_get input "todos" (VList [])) = Ok (Some r) ->
  execute input c = (Ok r, c).
Proof.
  intros [Ha|Ha] Hv;
    [rewrite (execute_create _ _ Ha) | rewrite (execute_update _ _ Ha)];
    rewrite Hv; reflexivity.
Qed.

Lemma execute_write_raised (input : pydict) (c : ModuleCoordinator) (e : exn) :
  writes input ->
  validate (dict_get input "todos" (VList [])) = Raise e ->
  execute input c = (Raise e, c).
Proof.
  intros [Ha|Ha] Hv;
    [rewrite (execute_create _ _ Ha) | rewrite (execute_update _ _ Ha)];
    rewrite Hv; reflexivity.
Qed.

Lemma length_chars (s : string) :
  List.length (list_ascii_of_string s) = String.length s.
Proof. induction s as [|a s IH]; [reflexivity | cbn; rewrite IH; reflexivity]. Qed.

Lemma len_iterate (v : value) (items : list value) :
  iterate v = Ok items -> len v = Ok (List.length items).
Proof.
  destruct v; try discriminate; intros [= <-]; cbn [len]; f_equal.
  - rewrite length_map, length_chars. reflexivity.
  - rewrite length_map. reflexivity.
Qed.

Lemma execute_write_passed (input : pydict) (c : ModuleCoordinator) :
  writes input ->
  validate (dict_get input "todos" (VList [])) = Ok None ->
  exists ds out,
    iterate (dict_get input "todos" (VList [])) = Ok (map VDict ds) /\
    Forall (fun d => item_valid d = true) ds /\
    execute input c =
      (Ok (succeeded out), set_todo_state (dict_get input "todos" (VList [])) c) /\
    dict_lookup "count" out = Some (VInt (Z.of_nat (List.length ds))).
Proof.
  intros Hw Hv. destruct (validate_passes _ Hv) as (_ & ds & Hit & Hds).
  pose proof (len_iterate _ _ Hit) as Hlen. rewrite length_map in Hlen.
  exists ds. destruct Hw as [Ha|Ha].
  - eexists. split; [exact Hit|]. split; [exact Hds|].
    rewrite (execute_create _ _ Ha), Hv. cbv zeta. rewrite Hlen.
    split; reflexivity.
  - eexists. split; [exact Hit|]. split; [exact Hds|].
    rewrite (execute_update _ _ Ha), Hv. cbv zeta.
    rewrite !(tally_passed _ _ _ Hit Hds), Hlen. cbn [bind].
    split; reflexivity.
Qed.



End Writes.

(** ** Further properties of [execute] *)

Section Further.
Import Py Todo Spec Session.

(** X1.  Whatever the input, a call that does not return a success result,
    because it returns a failure or because it raises, leaves the
    coordinator exactly as it was: the store is assigned only after the
    whole payload has passed validation, and nothing after the assignment
    can fail. *)
Theorem unsuccessful_call_keeps_coordinator (input : pydict) (c : ModuleCoordinator) :
  (forall r, fst (execute input c) = Ok r -> success r = false) ->
  snd (execute input c) = c.
Proof.
  intros Hf.
  destruct (execute_outcome input c) as [H | (_ & _ & (r & Hr & Hs) & _)]; [exact H|].
  rewrite (Hf r Hr) in Hs. discriminate Hs.
Qed.

Lemma unsuccessful_call_keeps_coordinator_witness :
  snd (execute (call "update" (VList [VDict run_tests; VInt 7]))
         (snd (execute (call "create" (records [build])) session)))
  = snd (execute (call "create" (records [build])) session).
Proof.
  apply unsuccessful_call_keeps_coordinator.
  intros r Hr. discriminate Hr.
Defined.

(** X2.  The only exception [execute] raises is [TypeError], never
    [KeyError]: the status of an item is read only after its presence was
    checked.  On a coordinator the session can be in, a call raises only
    when it is a create or update whose input carries a todos value that is
    not a sequence of records. *)
Theorem raises_only_type_error (input : pydict) (c : ModuleCoordinator) (e : exn) :
  fst (execute input c) = Raise e ->
  e = TypeError /\
  (reachable c ->
   writes input /\
   exists todos, dict_lookup "todos" input = Some todos /\
                 forall items, todos <> records items).
Proof.
  intros He.
  assert (Hw : forall (Hw : writes input),
             e = TypeError /\
             exists todos, dict_lookup "todos" input = Some todos /\
                           forall items, todos <> records items).
  { intros Hw.
    destruct (validate_cases (dict_get input "todos" (VList []))) as [Hv | [[m Hv] | Hv]].
    - destruct (execute_write_passed input c Hw Hv) as (ds & out & _ & _ & Hrun & _).
      rewrite Hrun in He. discriminate He.
    - rewrite (execute_write_failed input c _ Hw Hv) in He. discriminate He.
    - rewrite (execute_write_raised input c _ Hw Hv) in He. injection He as <-.
      split; [reflexivity|].
      destruct (dict_lookup "todos" input) as [todos|] eqn:Ht.
      + exists todos. split; [reflexivity|]. intros items ->.
        rewrite (dict_get_found _ _ _ _ Ht) in Hv.
        destruct (valid_or_invalid items) as [Hok | Hbad].
        * rewrite (validate_accepts _ Hok) in Hv. discriminate Hv.
        * destruct (validate_rejects items Hbad) as (pre & d & post & _ & _ & _ & Hr).
          rewrite Hr in Hv. discriminate Hv.
      + rewrite (dict_get_absent _ _ _ Ht) in Hv. discriminate Hv. }
  destruct (action_cases input) as [Ha | [Ha | [Ha | (H1 & H2 & H3)]]].
  - destruct (Hw (or_introl Ha)) as [-> Ht]. split; [reflexivity|].
    intros _. split; [left; exact Ha | exact Ht].
  - destruct (Hw (or_intror Ha)) as [-> Ht]. split; [reflexivity|].
    intros _. split; [right; exact Ha | exact Ht].
  - rewrite (execute_list _ _ Ha) in He. split.
    + destruct (contents c); cbn [len fst] in He; try discriminate He;
        injection He as <-; reflexivity.
    + intros Hc. rewrite (len_sized _ (reachable_sized _ Hc)) in He. discriminate He.
  - rewrite execute_unknown in He by assumption. discriminate He.
Qed.

Lemma raises_only_type_error_witness :
  TypeError = TypeError /\
  (reachable session ->
   writes (call "create" (VList [VInt 7])) /\
   exists todos, dict_lookup "todos" (call "create" (VList [VInt 7])) = Some todos /\
                 forall items, todos <> records items).
Proof.
  apply (raises_only_type_error (call "create" (VList [VInt 7])) session TypeError).
  reflexivity.
Defined.





(** X5.  The loop returns at the first invalid record: whatever follows
    it in the payload, records or not, is never examined, so the call
    answers with the rejection of that record, cannot raise, and leaves the
    coordinator unchanged. *)
Theorem validation_stops_at_first_invalid (c : ModuleCoordinator) (input : pydict)
    (pre : list pydict) (d : pydict) (rest : list value) :
  writes input ->
  dict_lookup "todos" input = Some (VList (map VDict pre ++ VDict d :: rest)) ->
  Forall (fun d => item_valid d = true) pre ->
  item_valid d = false ->
  execute input c = (Ok (failure (rejection (List.length pre) d)), c).
Proof.
  intros Hw Ht Hpre Hd. apply execute_write_failed; [exact Hw|].
  rewrite (dict_get_found _ _ _ _ Ht). unfold validate. cbn [iterate bind].
  rewrite (validate_from_skip 0 pre _ Hpre). apply validate_from_invalid, Hd.
Qed.

Lemma validation_stops_at_first_invalid_witness :
  execute (call "create" (VList [VDict run_tests; VDict bogus; VNone; VInt 3])) session
  = (Ok (failure "Todo 1 has invalid status: bogus"), session).
Proof.
  apply (validation_stops_at_first_invalid session _ [run_tests] bogus [VNone; VInt 3]).
  - left. reflexivity.
  - reflexivity.
  - repeat constructor.
  - reflexivity.
Defined.

(** X6.  A create or update whose todos value is null, a boolean or a
    number raises [TypeError] when the loop starts, and the coordinator is
    unchanged. *)
Theorem scalar_todos_raise (c : ModuleCoordinator) (input : pydict) (todos : value) :
  writes input ->
  dict_lookup "todos" input = Some todos ->
  is_scalar todos = true ->
  execute input c = (Raise TypeError, c).
Proof.
  intros Hw Ht Hs. apply execute_write_raised; [exact Hw|].
  rewrite (dict_get_found _ _ _ _ Ht).
  destruct todos; try discriminate Hs; reflexivity.
Qed.

Lemma scalar_todos_raise_witness :
  execute (call "update" (VInt 5)) session = (Raise TypeError, session).
Proof.
  apply (scalar_todos_raise session _ (VInt 5)).
  - right. reflexivity.
  - reflexivity.
  - reflexivity.
Defined.

(** X7.  An item that is null, a boolean or a number, reached after valid
    records only, makes the membership test raise [TypeError]; the
    coordinator is unchanged, the valid records before it are not
    stored. *)
Theorem scalar_item_raises (c : ModuleCoordinator) (input : pydict)
    (pre : list pydict) (v : value) (rest : list value) :
  writes input ->
  dict_lookup "todos" input = Some (VList (map VDict pre ++ v :: rest)) ->
  Forall (fun d => item_valid d = true) pre ->
  is_scalar v = true ->
  execute input c = (Raise TypeError, c).
Proof.
  intros Hw Ht Hpre Hv. apply execute_write_raised; [exact Hw|].
  rewrite (dict_get_found _ _ _ _ Ht). unfold validate. cbn [iterate bind].
  rewrite (validate_from_skip 0 pre _ Hpre). apply validate_from_scalar, Hv.
Qed.

Lemma scalar_item_raises_witness :
  execute (call "create" (VList [VDict run_tests; VNone; VDict build])) session
  = (Raise TypeError, session).
Proof.
  apply (scalar_item_raises session _ [run_tests] VNone [VDict build]).
  - left. reflexivity.
  - reflexivity.
  - repeat constructor.
  - reflexivity.
Defined.

(** X8.  An item that is a plain string, reached after valid records only,
    is tested by substring: unless the string contains all three field
    names the call fails with the missing-fields message for its index; if
    it contains all three, the subscript raises [TypeError].  In both
    cases the coordinator is unchanged. *)
Theorem string_item_outcome (c : ModuleCoordinator) (input : pydict)
    (pre : list pydict) (s : string) (rest : list value) :
  writes input ->
  dict_lookup "todos" input = Some (VList (map VDict pre ++ VStr s :: rest)) ->
  Forall (fun d => item_valid d = true) pre ->
  execute input c =
  if is_substring "content" s && is_substring "status" s && is_substring "activeForm" s
  then (Raise TypeError, c)
  else (Ok (failure ("Todo " ++ pretty (List.length pre)
                     ++ " missing required fields (content, status, activeForm)")), c).
Proof.
  intros Hw Ht Hpre.
  assert (Hv : validate (dict_get input "todos" (VList [])) =
               if mentions_all_fields s then Raise TypeError
               else Ok (Some (failure (missing_fields_message (List.length pre))))).
  { rewrite (dict_get_found _ _ _ _ Ht). unfold validate. cbn [iterate bind].
    rewrite (validate_from_skip 0 pre _ Hpre). apply validate_from_string. }
  unfold mentions_all_fields, required_fields in Hv. cbn [forallb] in Hv.
  rewrite andb_true_r, andb_assoc in Hv.
  destruct (is_substring "content" s && is_substring "status" s
            && is_substring "activeForm" s).
  - apply execute_write_raised; assumption.
  - apply execute_write_failed; assumption.
Qed.

Lemma string_item_outcome_witness :
  execute (call "create" (VList [VDict run_tests; VStr "Build project"])) session
  = (Ok (failure "Todo 1 missing required fields (content, status, activeForm)"), session).
Proof.
  apply (string_item_outcome session _ [run_tests] "Build project" []).
  - left. reflexivity.
  - reflexivity.
  - repeat constructor.
Defined.

(** X9.  A create or update whose todos value is a non-empty string walks
    through its characters: the first one cannot contain a field name, so
    the call fails with the missing-fields message for index 0 and the
    coordinator is unchanged. *)
Theorem string_todos_fail (c : ModuleCoordinator) (input : pydict) (s : string) :
  writes input ->
  dict_lookup "todos" input = Some (VStr s) ->
  s <> EmptyString ->
  execute input c =
  (Ok (failure "Todo 0 missing required fields (content, status, activeForm)"), c).
Proof.
  intros Hw Ht Hs. apply execute_write_failed; [exact Hw|].
  rewrite (dict_get_found _ _ _ _ Ht).
  destruct s as [|a s]; [congruence|].
  unfold validate. cbn [iterate list_ascii_of_string map bind].
  rewrite validate_from_string.
  assert (Hno : is_substring "content" (String a EmptyString) = false).
  { cbn [is_substring String.prefix].
    destruct (Ascii.ascii_dec "c" a); reflexivity. }
  unfold mentions_all_fields, required_fields. cbn [forallb]. rewrite Hno. reflexivity.
Qed.

Lemma string_todos_fail_witness :
  execute (call "create" (VStr "Run tests")) session
  = (Ok (failure "Todo 0 missing required fields (content, status, activeForm)"), session).
Proof.
  apply (string_todos_fail session _ "Run tests").
  - left. reflexivity.
  - reflexivity.
  - discriminate.
Defined.

(** X10.  [mount] registers the tool under the name todo, leaves every
    other entry of the registry alone and sets the store to the empty list,
    whatever it held; mounting twice is the same as mounting once. *)
Theorem mount_registers_and_resets (c : ModuleCoordinator) :
  tools (mount c) !! "todo" = Some TodoTool /\
  (forall k : string, k <> "todo" -> tools (mount c) !! k = tools c !! k) /\
  todo_state (mount c) = Some (VList []) /\
  mount (mount c) = mount c.
Proof.
  unfold mount, name. cbn [set_todo_state todo_state tools].
  split; [apply lookup_insert_eq|].
  split; [intros k Hk; apply lookup_insert_ne; congruence|].
  split; [reflexivity|].
  rewrite insert_insert_eq. reflexivity.
Qed.

Lemma mount_registers_and_resets_witness :
  tools (mount (snd (execute (call "create" (records [run_tests])) session))) !! "bash"
  = tools (snd (execute (call "create" (records [run_tests])) session)) !! "bash" /\
  todo_state (mount (snd (execute (call "create" (records [run_tests])) session)))
  = Some (VList []).
Proof.
  destruct (mount_registers_and_resets
              (snd (execute (call "create" (records [run_tests])) session)))
    as (_ & Hother & Hstore & _).
  split; [apply Hother; discriminate | exact Hstore].
Defined.

(** X11.  [execute] never touches the tool registry: whatever the input
    and however the call ends, the registry of the coordinator is the one
    it started with. *)
Theorem execute_keeps_registry (input : pydict) (c : ModuleCoordinator) :
  tools (snd (execute input c)) = tools c.
Proof.
  destruct (execute_outcome input c) as [-> | (_ & _ & _ & ->)]; reflexivity.
Qed.

(** X12.  The result of a create or update does not depend on the
    coordinator: the payload is validated on its own, never against what
    the store holds, so an update needs no earlier create and the same
    input gets the same answer in every session. *)
Theorem write_result_ignores_store (input : pydict) (c c' : ModuleCoordinator) :
  writes input ->
  fst (execute input c) = fst (execute input c').
Proof.
  intros Hw.
  destruct (validate_cases (dict_get input "todos" (VList []))) as [Hv | [[m Hv] | Hv]].
  - destruct Hw as [Ha|Ha].
    + rewrite (execute_create _ _ Ha), Hv. rewrite (execute_create _ _ Ha), Hv.
      cbv zeta. destruct (len _); reflexivity.
    + rewrite (execute_update _ _ Ha), Hv. rewrite (execute_update _ _ Ha), Hv.
      cbv zeta. match goal with |- context [match ?m with Ok _ => _ | Raise _ => _ end] =>
                  destruct m end; reflexivity.
  - rewrite !(execute_write_failed input _ _ Hw Hv). reflexivity.
  - rewrite !(execute_write_raised input _ _ Hw Hv). reflexivity.
Qed.

Lemma write_result_ignores_store_witness :
  fst (execute (call "update" (records [deploy; bogus])) unmounted)
  = fst (execute (call "update" (records [deploy; bogus]))
           (snd (execute (call "create" (records [run_tests])) session))).
Proof.
  apply write_result_ignores_store. right. reflexivity.
Defined.

(** *** Reading a failure message back *)

Lemma append_inv_head (a x y : string) : a ++ x = a ++ y -> x = y.
Proof.
  induction a as [|ch a IH]; cbn [String.append]; [auto|].
  intros [= H]. auto.
Qed.

Lemma pretty_N_char_digit (x : N) : is_digit (pretty_N_char x) = true.
Proof.
  destruct x as [|p]; [reflexivity|].
  repeat (try reflexivity; destruct p as [p|p|]).
Qed.

Lemma pretty_N_go_digits (x : N) (s : string) :
  all_digits s = true -> all_digits (pretty_N_go x s) = true.
Proof.
  revert s. induction (N.lt_wf_0 x) as [x _ IH]; intros s Hs.
  destruct (decide (0 < x)%N) as [Hx|Hx].
  - rewrite pretty_N_go_step by exact Hx.
    apply IH; [apply N.div_lt; lia|].
    cbn [all_digits]. rewrite pretty_N_char_digit, Hs. reflexivity.
  - replace x with 0%N by lia. rewrite pretty_N_go_0. exact Hs.
Qed.

Lemma pretty_nat_digits (n : nat) : all_digits (pretty n) = true.
Proof.
  unfold pretty, pretty_nat, pretty, pretty_N.
  destruct (decide (N.of_nat n = 0%N)); [reflexivity|].
  apply pretty_N_go_digits. reflexivity.
Qed.

(** Two texts that start with digits followed by a space agree on the
    digits and on what follows the space. *)
Lemma digits_then_space (a b x y : string) :
  all_digits a = true -> all_digits b = true ->
  a ++ String " " x = b ++ String " " y ->
  a = b /\ x = y.
Proof.
  revert b. induction a as [|ch a IH]; intros [|ch' b] Ha Hb H; cbn [String.append] in H.
  - injection H as ->. auto.
  - injection H as <- _. cbn [all_digits] in Hb. discriminate Hb.
  - injection H as -> _. cbn [all_digits] in Ha. discriminate Ha.
  - injection H as -> H. cbn [all_digits] in Ha, Hb.
    apply andb_true_iff in Ha as [_ Ha]. apply andb_true_iff in Hb as [_ Hb].
    destruct (IH b Ha Hb H) as [-> ->]. auto.
Qed.

(** X13.  The message of a rejected create or update can be read back: two
    rejected calls that return the same result stopped at the same index
    and for the same kind of failure, and when the failure is an invalid
    status the two statuses print alike. *)
Theorem rejection_message_determines_index (c c' : ModuleCoordinator)
    (input input' : pydict) (pre pre' : list pydict) (d d' : pydict)
    (post post' : list pydict) :
  writes input -> submits (pre ++ d :: post) input ->
  Forall (fun d => item_valid d = true) pre -> item_valid d = false ->
  writes input' -> submits (pre' ++ d' :: post') input' ->
  Forall (fun d => item_valid d = true) pre' -> item_valid d' = false ->
  fst (execute input c) = fst (execute input' c') ->
  List.length pre = List.length pre' /\
  has_required_fields d = has_required_fields d' /\
  (has_required_fields d = true ->
   str (dict_get d "status" VNone) = str (dict_get d' "status" VNone)).
Proof.
  intros Hw Hs Hpre Hd Hw' Hs' Hpre' Hd' Heq.
  rewrite (execute_rejects c input pre d post Hw Hs Hpre Hd) in Heq.
  rewrite (execute_rejects c' input' pre' d' post' Hw' Hs' Hpre' Hd') in Heq.
  cbn [fst] in Heq. injection Heq as Heq _.
  unfold rejection, invalid_status_message, missing_fields_message in Heq.
  destruct (has_required_fields d), (has_required_fields d');
    apply (append_inv_head "Todo ") in Heq;
    apply digits_then_space in Heq as [Hi Hrest];
    try apply pretty_nat_digits; try discriminate Hrest.
  - apply (inj pretty) in Hi. split; [exact Hi|]. split; [reflexivity|].
    intros _. apply (append_inv_head "has invalid status: "). exact Hrest.
  - apply (inj pretty) in Hi. split; [exact Hi|]. split; [reflexivity|].
    intros H. discriminate H.
Qed.

Lemma rejection_message_determines_index_witness :
  List.length [run_tests; build] = List.length [deploy; deploy] /\
  has_required_fields bogus = has_required_fields bogus /\
  (has_required_fields bogus = true ->
   str (dict_get bogus "status" VNone) = str (dict_get bogus "status" VNone)).
Proof.
  apply (rejection_message_determines_index session unmounted
           (call "create" (records [run_tests; build; bogus]))
           (call "update" (records [deploy; deploy; bogus; no_content]))
           [run_tests; build] [deploy; deploy] bogus bogus [] [no_content]).
  - left. reflexivity.
  - reflexivity.
  - repeat constructor.
  - reflexivity.
  - right. reflexivity.
  - reflexivity.
  - repeat constructor.
  - reflexivity.
  - reflexivity.
Defined.

(** X14.  Create and update differ only in the output of a success: given
    the same todos they leave the same coordinator, return the same
    failure, and raise alike. *)
Theorem create_and_update_agree (c : ModuleCoordinator) (create_input update_input : pydict) :
  action_is "create" create_input ->
  action_is "update" update_input ->
  dict_get create_input "todos" (VList []) = dict_get update_input "todos" (VList []) ->
  snd (execute create_input c) = snd (execute update_input c) /\
  (forall r, success r = false ->
     (fst (execute create_input c) = Ok r <-> fst (execute update_input c) = Ok r)) /\
  (forall e,
     (fst (execute create_input c) = Raise e <-> fst (execute update_input c) = Raise e)).
Proof.
  intros Hc Hu Ht.
  pose proof (or_introl Hc : writes create_input) as Hwc.
  pose proof (or_intror Hu : writes update_input) as Hwu.
  destruct (validate_cases (dict_get create_input "todos" (VList []))) as [Hv | [[m Hv] | Hv]];
    pose proof Hv as Hv'; rewrite Ht in Hv'.
  - destruct (execute_write_passed _ c Hwc Hv) as (ds & out & _ & _ & -> & _).
    destruct (execute_write_passed _ c Hwu Hv') as (ds' & out' & _ & _ & -> & _).
    cbn [fst snd]. rewrite Ht. split; [reflexivity|]. split.
    + intros r Hr. split; intros [= <-]; discriminate Hr.
    + intros e. split; intros H; discriminate H.
  - rewrite (execute_write_failed _ c _ Hwc Hv), (execute_write_failed _ c _ Hwu Hv').
    repeat split; auto.
  - rewrite (execute_write_raised _ c _ Hwc Hv), (execute_write_raised _ c _ Hwu Hv').
    repeat split; auto.
Qed.

Lemma create_and_update_agree_witness :
  snd (execute (call "create" (records [run_tests; bogus])) session)
  = snd (execute (call "update" (records [run_tests; bogus])) session) /\
  fst (execute (call "update" (records [run_tests; bogus])) session)
  = Ok (failure "Todo 1 has invalid status: bogus").
Proof.
  destruct (create_and_update_agree session
              (call "create" (records [run_tests; bogus]))
              (call "update" (records [run_tests; bogus]))) as (Hstore & Hfail & _).
  - reflexivity.
  - reflexivity.
  - reflexivity.
  - split; [exact Hstore|].
    apply (Hfail (failure "Todo 1 has invalid status: bogus")); reflexivity.
Defined.

(** *** Sessions *)







End Further.
